(** * airstatus: the AirPods Max advertisement decoder of [airpods.py]

    A shallow embedding of class [AirPodsMonitor] and the properties of its
    scanning and decoding pipeline.

    Conventions of the embedding.
    - Python [bytes] are [list byte]; a Python [int] is a [Z]; a Python [str]
      is the list of its code points.
    - [advertisement_data.manufacturer_data] is a dict from company id to
      payload: a [gmap Z bytes].
    - Methods run in the monad [M]: they read and write the monitor object
      [self], may raise a Python exception, and leave a trace of the calls
      they make to the outside (scanner start/stop, [asyncio.sleep]) and of
      the entries into the battery decoder.  State survives an exception, as
      in Python.
    - What the radio delivers during one scan window is an input: the world
      holds the stream of the windows still to come.
    - Console output under [debug] is not part of the model.
    - The exceptions of the model are of class [Exception].  Cancellation of
      the coroutine and [KeyboardInterrupt], which [except Exception] does
      not catch, are not modelled: the statements are about runs that are
      neither cancelled nor interrupted. *)

From Stdlib Require Import ZArith NArith QArith Lia.
From Stdlib Require Import Strings.Byte Strings.Ascii Numbers.DecimalString.
From stdpp Require Import gmap strings list.

Local Open Scope Z_scope.

(** ** Values *)

Definition bytes := list byte.

(** A Python [str]: its code points. *)
Definition pystr := list N.

Definition byte_to_Z (b : byte) : Z := Z.of_N (Byte.to_N b).

(** The exception classes that can arise in the modelled code; all of them
    derive from [Exception]. *)
Inductive exn :=
| IndexError
| ValueError
| UnicodeDecodeError
| BleakError.

Inductive result (A : Type) :=
| Ok (a : A)
| Raise (e : exn).
Arguments Ok {A} a.
Arguments Raise {A} e.

(** The value stored under ['error']: a literal message or [str(e)]. *)
Inductive error_value :=
| Msg (s : string)
| str (e : exn).

Module Charging.
Record t := mk { left : bool; right : bool; case : option bool }.
End Charging.

(** The dict returned by [decode_airpods_max_battery]. *)
Module BatteryInfo.
Record t := mk { left : Z; right : Z; case : option Z; charging : Charging.t }.
End BatteryInfo.

Module Battery.
Record t := mk { left : Z; right : Z; case : option Z }.
End Battery.

(** The dict returned by [decode_status] and [get_status]; a key that the
    dict does not have is [None].  ['raw_data'] is present with value [None]
    when [debug] is off. *)
Module Status.
Record t := mk {
  status : Z;
  model : option string;
  battery : option Battery.t;
  charging : option Charging.t;
  timestamp : option string;
  raw_data : option (option pystr);
  error : option error_value
}.
End Status.

Record BLEDevice := { address : string; name : option string }.

Record AdvertisementData := {
  rssi : Z;
  manufacturer_data : gmap Z bytes
}.

(** One scan window as the radio presents it: whether creating or starting
    the scanner raises, the advertisements reported while it runs, in order,
    and whether stopping it raises. *)
Record session := {
  start_raises : bool;
  adverts : list (BLEDevice * AdvertisementData);
  stop_raises : bool
}.

Inductive event :=
| scanner_start
| scanner_stop
| sleep (seconds : Z)
| decoder_call (data : bytes).

(** ** The monitor object and the world *)

Record AirPodsMonitor := {
  MIN_RSSI : Q;
  debug : bool;
  found_device : option BLEDevice;
  found_data : option bytes
}.

Definition AIRPODS_MANUFACTURER : Z := 76.

(** [AirPodsMonitor(debug)]: the class attribute [MIN_RSSI = -70] and the
    fields set by [__init__]. *)
Definition init (dbg : bool) : AirPodsMonitor :=
  {| MIN_RSSI := (-70)%Q; debug := dbg; found_device := None; found_data := None |}.

Record world := {
  self : AirPodsMonitor;
  radio : nat -> session;
  trace : list event
}.

Definition M (A : Type) : Type := world -> result A * world.

#[global] Instance M_ret : MRet M := fun A a w => (Ok a, w).
#[global] Instance M_bind : MBind M := fun A B f m w =>
  match m w with
  | (Ok a, w') => f a w'
  | (Raise e, w') => (Raise e, w')
  end.

Definition raise {A} (e : exn) : M A := fun w => (Raise e, w).

Definition lift {A} (r : result A) : M A := fun w => (r, w).

(** [try: body except Exception as e: handler e] *)
Definition try_except {A} (body : M A) (handler : exn -> M A) : M A := fun w =>
  match body w with
  | (Ok a, w') => (Ok a, w')
  | (Raise e, w') => handler e w'
  end.

Definition get_self : M AirPodsMonitor := fun w => (Ok (self w), w).

Definition set_found (device : BLEDevice) (data : bytes) : M unit := fun w =>
  (Ok tt,
   {| self := {| MIN_RSSI := MIN_RSSI (self w); debug := debug (self w);
                 found_device := Some device; found_data := Some data |};
      radio := radio w; trace := trace w |}).

Definition log (e : event) : M unit := fun w =>
  (Ok tt, {| self := self w; radio := radio w; trace := trace w ++ [e] |}).

(** Takes the next scan window off the radio. *)
Definition next_window : M session := fun w =>
  (Ok (radio w 0%nat),
   {| self := self w; radio := fun n => radio w (S n); trace := trace w |}).

Definition eval {A} (m : M A) (w : world) : result A := fst (m w).
Definition exec {A} (m : M A) (w : world) : world := snd (m w).

(** [data[i]] for a non-negative index. *)
Definition index (data : bytes) (i : nat) : M byte :=
  match data !! i with
  | Some b => mret b
  | None => raise IndexError
  end.

(** ** Library functions: [binascii.hexlify], [bytes.decode('utf-8')],
    [bytes.fromhex] *)

Definition hexdigit (n : N) : byte :=
  match n with
  | 0 => "0" | 1 => "1" | 2 => "2" | 3 => "3" | 4 => "4" | 5 => "5"
  | 6 => "6" | 7 => "7" | 8 => "8" | 9 => "9" | 10 => "a" | 11 => "b"
  | 12 => "c" | 13 => "d" | 14 => "e" | _ => "f"
  end%N%byte.

(** [hexlify(data)]: two lowercase hexadecimal digits per byte. *)
Fixpoint hexlify (data : bytes) : bytes :=
  match data with
  | [] => []
  | b :: rest =>
      hexdigit (Byte.to_N b / 16) :: hexdigit (Byte.to_N b mod 16) :: hexlify rest
  end.

Definition is_cont (b : byte) : bool :=
  ((0x80 <=? Byte.to_N b) && (Byte.to_N b <=? 0xBF))%N.

Definition in_range (lo hi : N) (b : byte) : bool :=
  ((lo <=? Byte.to_N b) && (Byte.to_N b <=? hi))%N.

Definition payload_bits (b : byte) : N := (Byte.to_N b mod 64)%N.

(** [b.decode('utf-8')] with the default strict error handler: well-formed
    UTF-8 only (no overlong forms, no surrogates, nothing above U+10FFFF). *)
Fixpoint utf8_decode (b : bytes) : result pystr :=
  let continue (c : N) (rest : result pystr) : result pystr :=
    match rest with
    | Ok s => Ok (c :: s)
    | Raise e => Raise e
    end in
  match b with
  | [] => Ok []
  | b0 :: t0 =>
      let n0 := Byte.to_N b0 in
      if (n0 <? 0x80)%N then continue n0 (utf8_decode t0)
      else if in_range 0xC2 0xDF b0 then
        match t0 with
        | b1 :: t1 =>
            if is_cont b1
            then continue ((n0 mod 32) * 64 + payload_bits b1)%N (utf8_decode t1)
            else Raise UnicodeDecodeError
        | _ => Raise UnicodeDecodeError
        end
      else if in_range 0xE0 0xEF b0 then
        match t0 with
        | b1 :: b2 :: t2 =>
            if (if (n0 =? 0xE0)%N then in_range 0xA0 0xBF b1
                else if (n0 =? 0xED)%N then in_range 0x80 0x9F b1
                else is_cont b1) && is_cont b2
            then continue (((n0 mod 16) * 64 + payload_bits b1) * 64
                           + payload_bits b2)%N (utf8_decode t2)
            else Raise UnicodeDecodeError
        | _ => Raise UnicodeDecodeError
        end
      else if in_range 0xF0 0xF4 b0 then
        match t0 with
        | b1 :: b2 :: b3 :: t3 =>
            if (if (n0 =? 0xF0)%N then in_range 0x90 0xBF b1
                else if (n0 =? 0xF4)%N then in_range 0x80 0x8F b1
                else is_cont b1) && is_cont b2 && is_cont b3
            then continue ((((n0 mod 8) * 64 + payload_bits b1) * 64
                            + payload_bits b2) * 64 + payload_bits b3)%N
                          (utf8_decode t3)
            else Raise UnicodeDecodeError
        | _ => Raise UnicodeDecodeError
        end
      else Raise UnicodeDecodeError
  end.

(** ASCII whitespace, which [bytes.fromhex] skips between bytes:
    space, [\t], [\n], [\v], [\f], [\r]. *)
Definition is_space (c : N) : bool :=
  ((c =? 32) || ((9 <=? c) && (c <=? 13)))%N.

Definition hexval (c : N) : option N :=
  (if (48 <=? c) && (c <=? 57) then Some (c - 48)
   else if (97 <=? c) && (c <=? 102) then Some (c - 87)
   else if (65 <=? c) && (c <=? 70) then Some (c - 55)
   else None)%N.

Definition byte_of_N (n : N) : byte :=
  match Byte.of_N n with
  | Some b => b
  | None => x00
  end.

(** [bytes.fromhex(s)]: two hexadecimal digits of either case per byte,
    whitespace allowed between bytes, [ValueError] otherwise. *)
Fixpoint fromhex (s : pystr) : result bytes :=
  match s with
  | [] => Ok []
  | c :: t =>
      if is_space c then fromhex t
      else
        match hexval c, t with
        | Some hi, c' :: t' =>
            match hexval c' with
            | Some lo =>
                match fromhex t' with
                | Ok rest => Ok (byte_of_N (16 * hi + lo) :: rest)
                | Raise e => Raise e
                end
            | None => Raise ValueError
            end
        | _, _ => Raise ValueError
        end
  end.

(** ** Methods of [AirPodsMonitor] *)

(** [await asyncio.sleep(seconds)] *)
Definition asyncio_sleep (seconds : Z) : M unit := log (sleep seconds).

(** [len(data) == 27 and data[0] == 0x12]; the index is evaluated only when
    the length test succeeds. *)
Definition is_airpods_max (data : bytes) : M bool :=
  if (Z.of_nat (length data) =? 27) then
    b0 ← index data 0;
    mret (byte_to_Z b0 =? 0x12)
  else mret false.

Definition detection_callback
    (device : BLEDevice) (advertisement_data : AdvertisementData) : M unit :=
  match manufacturer_data advertisement_data !! AIRPODS_MANUFACTURER with
  | Some data =>
      let hex_data := hexlify data in
      ok ← is_airpods_max data;
      if ok : bool then set_found device data else mret tt
  | None => mret tt
  end.

(** The scanner calls the callback once per advertisement, in the order of
    arrival. *)
Fixpoint deliver (ads : list (BLEDevice * AdvertisementData)) : M unit :=
  match ads with
  | [] => mret tt
  | (device, advertisement_data) :: rest =>
      detection_callback device advertisement_data;;
      deliver rest
  end.

(** [BleakScanner(...)] and [await scanner.start()]; the call is recorded
    whether or not it raises. *)
Definition start (s : session) : M unit :=
  log scanner_start;;
  if start_raises s then raise BleakError else mret tt.

(** [await scanner.stop()] *)
Definition stop (s : session) : M unit :=
  log scanner_stop;;
  if stop_raises s then raise BleakError else mret tt.

(** Truth value of [self.found_data]: [None] and [b''] are false. *)
Definition truthy (found : option bytes) : bool :=
  match found with
  | Some (_ :: _) => true
  | _ => false
  end.

Definition find_airpods : M (option bytes) :=
  try_except
    (s ← next_window;
     start s;;
     deliver (adverts s);;
     asyncio_sleep 12;;
     stop s;;
     me ← get_self;
     if truthy (found_data me)
     then mret (hexlify <$> found_data me)
     else mret None)
    (fun e => mret None).

Definition decode_failure : BatteryInfo.t :=
  BatteryInfo.mk (-1) (-1) None (Charging.mk false false None).

Definition decode_airpods_max_battery (data : bytes) : M BatteryInfo.t :=
  log (decoder_call data);;
  try_except
    (battery_byte ← index data 12;
     let battery_value := Z.land (byte_to_Z battery_byte) 0x0F in
     b14 ← index data 14;
     let charging := negb (Z.land (byte_to_Z b14) 0x80 =? 0) in
     mret (BatteryInfo.mk battery_value battery_value None
             (Charging.mk charging charging None)))
    (fun e => mret decode_failure).

(** [now] is the reading of [datetime.now()], already formatted. *)
Definition decode_status (now : string) (hex_data : bytes) : M Status.t :=
  try_except
    (text ← lift (utf8_decode hex_data);
     data ← lift (fromhex text);
     ok ← is_airpods_max data;
     if ok : bool then
       battery_info ← decode_airpods_max_battery data;
       me ← get_self;
       raw ← (if debug me then lift (utf8_decode hex_data) ≫= (fun s => mret (Some s))
               else mret None);
       mret (Status.mk 1 (Some "AirPods Max"%string)
               (Some (Battery.mk (BatteryInfo.left battery_info)
                                 (BatteryInfo.right battery_info) None))
               (Some (BatteryInfo.charging battery_info))
               (Some now) (Some raw) None)
     else
       mret (Status.mk 0 None None None None None
               (Some (Msg "Unsupported device type"))))
    (fun e => mret (Status.mk 0 None None None None None (Some (str e)))).

(** [range(n)] *)
Definition range (n : Z) : list Z := map Z.of_nat (seq 0 (Z.to_nat n)).

Definition not_found : Status.t :=
  Status.mk 0 None None None None None (Some (Msg "AirPods Max not found")).

(** The body of the [for] loop of [get_status], over the attempts left. *)
Fixpoint attempts (now : string) (max_attempts : Z) (todo : list Z) : M Status.t :=
  match todo with
  | [] => mret not_found
  | attempt :: rest =>
      hex_data ← find_airpods;
      match hex_data with
      | Some h => decode_status now h
      | None =>
          (if attempt <? max_attempts - 1 then asyncio_sleep 1 else mret tt);;
          attempts now max_attempts rest
      end
  end.

Definition get_status (now : string) (max_attempts : Z) : M Status.t :=
  attempts now max_attempts (range max_attempts).

(** ** Vocabulary of the statements *)

(** The shape test of [detection_callback] and [decode_status]. *)
Definition airpods_max_shape (data : bytes) : Prop :=
  length data = 27%nat /\ data !! 0%nat = Some x12.

(** An advertisement that [detection_callback] captures. *)
Definition qualifying (adv : AdvertisementData) : Prop :=
  exists data, manufacturer_data adv !! AIRPODS_MANUFACTURER = Some data
               /\ airpods_max_shape data.


Definition is_start (e : event) : bool :=
  match e with scanner_start => true | _ => false end.

Definition is_backoff (e : event) : bool :=
  match e with sleep 1 => true | _ => false end.

Definition sessions_run (tr : list event) : nat := length (List.filter is_start tr).
Definition backoffs (tr : list event) : nat := length (List.filter is_backoff tr).




Definition unsupported : Status.t :=
  Status.mk 0 None None None None None (Some (Msg "Unsupported device type")).

#[global] Instance byte_eq_dec : EqDecision byte := Byte.byte_eq_dec.

#[global] Instance airpods_max_shape_dec (data : bytes) :
  Decision (airpods_max_shape data).
Proof. unfold airpods_max_shape. apply _. Defined.

(** The world once the battery decoder has been entered on [data]. *)
Definition entered (data : bytes) (w : world) : world :=
  {| self := self w; radio := radio w; trace := trace w ++ [decoder_call data] |}.

(** The world after [self.found_device = device; self.found_data = data]. *)
Definition captured (device : BLEDevice) (data : bytes) (w : world) : world :=
  exec (set_found device data) w.

(** The world once the window at the head of the radio has been consumed. *)
Definition after_window (me : AirPodsMonitor) (tr : list event) (w : world) : world :=
  {| self := me; radio := fun n => radio w (S n); trace := trace w ++ tr |}.

(** ** Sample inputs *)

(** A 27-byte AirPods Max payload with the given bytes at offsets 12 and 14. *)
Definition sample_payload (b12 b14 : byte) : bytes :=
  (x12 :: repeat x00 11) ++ [b12; x00; b14] ++ repeat xff 12.

Definition headphones_a : BLEDevice := {| address := "AA:BB:CC:00:00:01"; name := None |}.
Definition headphones_b : BLEDevice :=
  {| address := "AA:BB:CC:00:00:02"; name := Some "AirPods Max"%string |}.

Definition advert (signal : Z) (data : bytes) : AdvertisementData :=
  {| rssi := signal; manufacturer_data := {[ AIRPODS_MANUFACTURER := data ]} |}.

Definition quiet : session :=
  {| start_raises := false; adverts := []; stop_raises := false |}.

Definition hears (ads : list (BLEDevice * AdvertisementData)) : session :=
  {| start_raises := false; adverts := ads; stop_raises := false |}.

(** A new monitor in front of a radio that stays quiet after the given
    windows. *)
Definition fresh (windows : list session) : world :=
  {| self := init false; radio := fun n => nth n windows quiet; trace := [] |}.

(** A window whose scanner fails to stop. *)
Definition interrupted (ads : list (BLEDevice * AdvertisementData)) : session :=
  {| start_raises := false; adverts := ads; stop_raises := true |}.

(** A monitor that has captured [sample_payload x05 x80] from
    [headphones_a], in front of the given windows. *)
Definition primed (windows : list session) : world :=
  exec (detection_callback headphones_a (advert (-60) (sample_payload x05 x80)))
       (fresh windows).

(** ** Presentation: [format_output] *)

(** What [format_output] gives: the text, or the [KeyError] of a missing
    key. *)
Inductive formatted :=
| Text (s : pystr)
| KeyError (key : string).

(** A literal of the source as a Python [str]. *)
Definition lit (s : string) : pystr :=
  map Ascii.N_of_ascii (String.list_ascii_of_string s).

(** [str(z)] for an [int]: decimal digits, a minus sign when negative. *)
Definition py_str_int (z : Z) : pystr := lit (NilZero.string_of_int (Z.to_int z)).

Definition cross_mark : pystr := [0x274C%N].
Definition headphone : pystr := [0x1F3A7%N].
Definition high_voltage : pystr := [0x26A1%N].
Definition newline : pystr := [10%N].

(** ['\n'.join(output)] *)
Fixpoint join_lines (output : list pystr) : pystr :=
  match output with
  | [] => []
  | [line] => line
  | line :: rest => line ++ newline ++ join_lines rest
  end.

(** The text of an ['error'] entry; [exception_text] is [str(e)] for the
    exceptions of the Python library. *)
Definition error_text (exception_text : exn -> pystr) (e : error_value) : pystr :=
  match e with
  | Msg s => lit s
  | str e => exception_text e
  end.

Definition format_output (exception_text : exn -> pystr) (data : Status.t) : formatted :=
  if Status.status data =? 0 then
    Text (cross_mark ++ lit " Error: "
          ++ match Status.error data with
             | Some e => error_text exception_text e
             | None => lit "Unknown error"
             end)
  else
    match Status.model data with
    | None => KeyError "model"
    | Some model =>
        if String.eqb model "AirPods Max" then
          match Status.battery data, Status.charging data with
          | None, _ => KeyError "battery"
          | Some _, None => KeyError "charging"
          | Some battery, Some charging =>
              Text (headphone ++ lit " " ++ lit model ++ newline ++ lit "Battery: "
                    ++ py_str_int (Battery.left battery) ++ lit "% "
                    ++ (if Charging.left charging then high_voltage else []))
          end
        else
          match Status.battery data, Status.charging data with
          | None, _ => KeyError "battery"
          | Some _, None => KeyError "charging"
          | Some battery, Some charging =>
              let output :=
                [headphone ++ lit " " ++ lit model;
                 lit "Left:  " ++ py_str_int (Battery.left battery) ++ lit "% "
                   ++ (if Charging.left charging then high_voltage else []);
                 lit "Right: " ++ py_str_int (Battery.right battery) ++ lit "% "
                   ++ (if Charging.right charging then high_voltage else [])] in
              let output :=
                match Battery.case battery with
                | Some percent =>
                    output ++
                    [lit "Case:  " ++ py_str_int percent ++ lit "% "
                       ++ (if default false (Charging.case charging)
                           then high_voltage else [])]
                | None => output
                end in
              Text (join_lines output)
          end
    end.

(** ** Vocabulary of the further properties *)

(** The two capture fields are set together, and only to a payload of the
    AirPods Max shape. *)
Definition consistent (me : AirPodsMonitor) : Prop :=
  (found_device me = None /\ found_data me = None)
  \/ (exists device data,
        found_device me = Some device /\ found_data me = Some data
        /\ airpods_max_shape data).

(** The same window with every signal strength passed through [f]. *)
Definition resignal (f : Z -> Z) (s : session) : session :=
  {| start_raises := start_raises s;
     adverts := map (fun da => (fst da, {| rssi := f (rssi (snd da));
                                           manufacturer_data := manufacturer_data (snd da) |}))
                    (adverts s);
     stop_raises := stop_raises s |}.

(** The same world with another [MIN_RSSI] and other signal strengths. *)
Definition retuned (threshold : Q) (f : Z -> Z) (w : world) : world :=
  {| self := {| MIN_RSSI := threshold; debug := debug (self w);
                found_device := found_device (self w);
                found_data := found_data (self w) |};
     radio := fun n => resignal f (radio w n);
     trace := trace w |}.

(** Seconds spent in [asyncio.sleep]. *)
Fixpoint slept (tr : list event) : Z :=
  match tr with
  | [] => 0
  | sleep seconds :: rest => seconds + slept rest
  | _ :: rest => slept rest
  end.

(** ** Running the monad *)

Ltac run :=
  repeat (progress unfold eval, exec, asyncio_sleep, index, mbind, M_bind, mret,
            M_ret, raise, lift, try_except, get_self, log in * );
  cbn [fst snd] in *.

Lemma world_eta (w : world) :
  {| self := self w; radio := radio w; trace := trace w |} = w.
Proof. by destruct w. Qed.

Lemma byte_to_Z_x12 (b : byte) : (byte_to_Z b =? 0x12) = true <-> b = x12.
Proof.
  split; [| by intros ->].
  destruct b; vm_compute; congruence.
Qed.

Lemma byte_to_Z_range (b : byte) : 0 <= byte_to_Z b < 256.
Proof.
  unfold byte_to_Z. pose proof (Byte.to_N_bounded b). lia.
Qed.

Lemma is_airpods_max_true (data : bytes) (w : world) :
  airpods_max_shape data -> is_airpods_max data w = (Ok true, w).
Proof.
  intros [Hlen H0]. unfold is_airpods_max. rewrite Hlen. cbn [Z.of_nat Z.eqb Pos.eqb Pos.of_succ_nat].
  run. rewrite H0. by vm_compute.
Qed.

Lemma is_airpods_max_false (data : bytes) (w : world) :
  ~ airpods_max_shape data -> is_airpods_max data w = (Ok false, w).
Proof.
  intros Hn. unfold is_airpods_max.
  destruct (Z.of_nat (length data) =? 27) eqn:Hlen; [| done].
  apply Z.eqb_eq in Hlen. run.
  destruct (data !! 0%nat) as [b0 |] eqn:H0.
  - destruct (byte_to_Z b0 =? 18) eqn:Hb; [| done].
    apply byte_to_Z_x12 in Hb as ->. destruct Hn. split; [lia | done].
  - apply lookup_ge_None in H0. lia.
Qed.

Lemma is_airpods_max_total (data : bytes) (w : world) :
  exists ok, is_airpods_max data w = (Ok ok, w).
Proof.
  unfold is_airpods_max. destruct (Z.of_nat (length data) =? 27) eqn:Hlen; [| by eexists].
  apply Z.eqb_eq in Hlen. run.
  destruct (data !! 0%nat) as [b0 |] eqn:H0; [by eexists |].
  apply lookup_ge_None in H0. lia.
Qed.

(** ** The battery decoder *)

Lemma decoder_in_range (data : bytes) (b12 b14 : byte) (w : world) :
  data !! 12%nat = Some b12 -> data !! 14%nat = Some b14 ->
  decode_airpods_max_battery data w =
    (Ok (BatteryInfo.mk (Z.land (byte_to_Z b12) 0x0F) (Z.land (byte_to_Z b12) 0x0F) None
           (Charging.mk (negb (Z.land (byte_to_Z b14) 0x80 =? 0))
                        (negb (Z.land (byte_to_Z b14) 0x80 =? 0)) None)),
     entered data w).
Proof.
  intros H12 H14. unfold decode_airpods_max_battery. run. by rewrite H12, H14.
Qed.

Lemma decoder_out_of_range (data : bytes) (w : world) :
  (length data < 15)%nat ->
  decode_airpods_max_battery data w = (Ok decode_failure, entered data w).
Proof.
  intros Hlen. unfold decode_airpods_max_battery. run.
  destruct (data !! 12%nat) as [b12 |] eqn:H12; [| done].
  destruct (data !! 14%nat) as [b14 |] eqn:H14; [| done].
  apply lookup_lt_Some in H14. lia.
Qed.

Lemma decoder_cases (data : bytes) (w : world) :
  (exists b12 b14, data !! 12%nat = Some b12 /\ data !! 14%nat = Some b14)
  \/ (length data < 15)%nat.
Proof.
  destruct (decide (length data < 15)%nat) as [Hlt | Hge]; [by right | left].
  destruct (lookup_lt_is_Some_2 data 12%nat) as [b12 H12]; [lia |].
  destruct (lookup_lt_is_Some_2 data 14%nat) as [b14 H14]; [lia |].
  eauto.
Qed.


Lemma low_nibble_range (z : Z) : 0 <= Z.land z 0x0F <= 15.
Proof.
  assert (Z.land z 0x0F = z mod 16) as ->.
  { change 0x0F with (Z.ones 4). by rewrite Z.land_ones. }
  pose proof (Z.mod_pos_bound z 16). lia.
Qed.

(** ** Hexadecimal transport of the payload *)

Lemma utf8_decode_ascii (b : byte) (t : bytes) :
  (Byte.to_N b < 0x80)%N ->
  utf8_decode (b :: t) =
    match utf8_decode t with
    | Ok s => Ok (Byte.to_N b :: s)
    | Raise e => Raise e
    end.
Proof.
  intros H. apply N.ltb_lt in H. cbn [utf8_decode]. by rewrite H.
Qed.

Lemma hexdigit_ascii (n : N) : (Byte.to_N (hexdigit n) < 0x80)%N.
Proof. unfold hexdigit. repeat case_match; by vm_compute. Qed.

Lemma utf8_decode_hexlify (data : bytes) :
  utf8_decode (hexlify data) = Ok (map Byte.to_N (hexlify data)).
Proof.
  induction data as [| b rest IH]; [done |].
  cbn [hexlify map].
  rewrite !utf8_decode_ascii by apply hexdigit_ascii.
  by rewrite IH.
Qed.

Lemma fromhex_pair (b : byte) (t : pystr) :
  fromhex (Byte.to_N (hexdigit (Byte.to_N b / 16))
           :: Byte.to_N (hexdigit (Byte.to_N b mod 16)) :: t) =
    match fromhex t with
    | Ok rest => Ok (b :: rest)
    | Raise e => Raise e
    end.
Proof. destruct b; reflexivity. Qed.

Lemma fromhex_hexlify (data : bytes) :
  fromhex (map Byte.to_N (hexlify data)) = Ok data.
Proof.
  induction data as [| b rest IH]; [done |].
  cbn [hexlify map]. by rewrite fromhex_pair, IH.
Qed.

(** ** [decode_status] *)

Lemma decode_status_shape (now : string) (data : bytes) (w : world) :
  airpods_max_shape data ->
  exists info,
    eval (decode_airpods_max_battery data) w = Ok info
    /\ decode_status now (hexlify data) w =
         (Ok (Status.mk 1 (Some "AirPods Max"%string)
                (Some (Battery.mk (BatteryInfo.left info) (BatteryInfo.right info) None))
                (Some (BatteryInfo.charging info))
                (Some now)
                (Some (if debug (self w) then Some (map Byte.to_N (hexlify data)) else None))
                None),
          entered data w).
Proof.
  intros Hshape.
  destruct (decoder_cases data w) as [(b12 & b14 & H12 & H14) | Hlt].
  - eexists. split.
    + unfold eval. by rewrite (decoder_in_range data b12 b14 w H12 H14).
    + unfold decode_status. run.
      rewrite utf8_decode_hexlify, fromhex_hexlify, is_airpods_max_true by done.
      rewrite (decoder_in_range data b12 b14 w H12 H14).
      cbn [self entered]. by destruct (debug (self w)).
  - destruct Hshape as [Hlen _]. lia.
Qed.

Lemma decode_status_no_shape (now : string) (data : bytes) (w : world) :
  ~ airpods_max_shape data ->
  decode_status now (hexlify data) w = (Ok unsupported, w).
Proof.
  intros Hn. unfold decode_status. run.
  by rewrite utf8_decode_hexlify, fromhex_hexlify, is_airpods_max_false.
Qed.

(** What [decode_status] returns, as a function of its input alone, apart
    from the timestamp and the raw-data echo. *)
Lemma decode_status_cases (now : string) (hex_data : bytes) (w : world) :
  (exists e, decode_status now hex_data w =
               (Ok (Status.mk 0 None None None None None (Some (str e))), w)
             /\ (utf8_decode hex_data = Raise e
                 \/ exists text, utf8_decode hex_data = Ok text /\ fromhex text = Raise e))
  \/ (exists text data, utf8_decode hex_data = Ok text /\ fromhex text = Ok data
        /\ ~ airpods_max_shape data
        /\ decode_status now hex_data w = (Ok unsupported, w))
  \/ (exists text data info, utf8_decode hex_data = Ok text /\ fromhex text = Ok data
        /\ airpods_max_shape data
        /\ eval (decode_airpods_max_battery data) w = Ok info
        /\ decode_status now hex_data w =
             (Ok (Status.mk 1 (Some "AirPods Max"%string)
                    (Some (Battery.mk (BatteryInfo.left info) (BatteryInfo.right info) None))
                    (Some (BatteryInfo.charging info))
                    (Some now)
                    (Some (if debug (self w) then Some text else None))
                    None),
              entered data w)).
Proof.
  unfold decode_status. run.
  destruct (utf8_decode hex_data) as [text | e] eqn:Ht; [| left; eauto].
  destruct (fromhex text) as [data | e] eqn:Hd; [| left; eauto 10].
  right.
  destruct (decide (airpods_max_shape data)) as [Hs | Hs].
  - right. rewrite is_airpods_max_true by done.
    destruct (decoder_cases data w) as [(b12 & b14 & H12 & H14) | Hlt];
      [| destruct Hs; lia].
    rewrite (decoder_in_range data b12 b14 w H12 H14).
    eexists text, data, _. repeat split; try done; try apply Hs.
    { by rewrite (decoder_in_range data b12 b14 w H12 H14). }
    cbn [self entered]. by destruct (debug (self w)).
  - left. rewrite is_airpods_max_false by done. eauto 10.
Qed.

(** ** The detection callback *)

Lemma detection_callback_capture device adv data (w : world) :
  manufacturer_data adv !! AIRPODS_MANUFACTURER = Some data ->
  airpods_max_shape data ->
  detection_callback device adv w = (Ok tt, captured device data w).
Proof.
  intros Hmd Hs. unfold detection_callback. rewrite Hmd. run.
  by rewrite is_airpods_max_true.
Qed.

Lemma detection_callback_skip device adv (w : world) :
  ~ qualifying adv -> detection_callback device adv w = (Ok tt, w).
Proof.
  intros Hq. unfold detection_callback.
  destruct (manufacturer_data adv !! AIRPODS_MANUFACTURER) as [data |] eqn:Hmd; [| done].
  run. rewrite is_airpods_max_false; [done |].
  intros Hs. apply Hq. by exists data.
Qed.

(** The callback reads neither the signal strength nor [MIN_RSSI]. *)
Lemma detection_callback_ignores_rssi device (signal1 signal2 : Z) md (w : world) :
  detection_callback device {| rssi := signal1; manufacturer_data := md |} w
  = detection_callback device {| rssi := signal2; manufacturer_data := md |} w.
Proof. reflexivity. Qed.

Lemma detection_callback_total device adv (w : world) :
  exists w', detection_callback device adv w = (Ok tt, w')
             /\ radio w' = radio w /\ trace w' = trace w
             /\ debug (self w') = debug (self w).
Proof.
  unfold detection_callback.
  destruct (manufacturer_data adv !! AIRPODS_MANUFACTURER) as [data |] eqn:Hmd;
    [| by eexists].
  run. destruct (is_airpods_max_total data w) as [[] ->]; by eexists.
Qed.

Lemma deliver_total ads (w : world) :
  exists w', deliver ads w = (Ok tt, w')
             /\ radio w' = radio w /\ trace w' = trace w
             /\ debug (self w') = debug (self w).
Proof.
  revert w. induction ads as [| [device adv] rest IH]; intros w; [by eexists |].
  cbn [deliver]. run.
  destruct (detection_callback_total device adv w) as (w1 & -> & Hr1 & Ht1 & Hd1).
  destruct (IH w1) as (w2 & -> & Hr2 & Ht2 & Hd2).
  exists w2. by rewrite Hr2, Ht2, Hd2.
Qed.

Lemma deliver_app ads1 ads2 (w : world) :
  deliver (ads1 ++ ads2) w = deliver ads2 (exec (deliver ads1) w).
Proof.
  revert w. induction ads1 as [| [device adv] rest IH]; intros w; [done |].
  cbn [app deliver]. run.
  destruct (detection_callback_total device adv w) as (w1 & -> & _).
  by rewrite IH.
Qed.

Lemma deliver_skip ads (w : world) :
  Forall (fun da => ~ qualifying (snd da)) ads -> deliver ads w = (Ok tt, w).
Proof.
  induction 1 as [| [device adv] rest Hq _ IH]; [done |].
  cbn [deliver]. run. by rewrite detection_callback_skip.
Qed.

Lemma deliver_last ads1 device adv data ads2 (w : world) :
  manufacturer_data adv !! AIRPODS_MANUFACTURER = Some data ->
  airpods_max_shape data ->
  Forall (fun da => ~ qualifying (snd da)) ads2 ->
  deliver (ads1 ++ (device, adv) :: ads2) w
  = (Ok tt, captured device data (exec (deliver ads1) w)).
Proof.
  intros Hmd Hs Hrest. rewrite deliver_app. cbn [deliver]. run.
  rewrite (detection_callback_capture device adv data) by done.
  by rewrite deliver_skip.
Qed.

(** ** One scan window *)

Lemma find_airpods_total (w : world) :
  exists found me tr,
    find_airpods w = (Ok found, after_window me tr w)
    /\ sessions_run tr = 1%nat /\ backoffs tr = 0%nat
    /\ last tr <> Some (sleep 1).
Proof.
  unfold find_airpods, next_window, start, stop. run.
  destruct (start_raises (radio w 0%nat)).
  { exists None, (self w), [scanner_start]. by repeat split. }
  match goal with |- context [deliver ?ads ?w0] =>
    destruct (deliver_total ads w0) as (w1 & -> & Hr & Ht & _) end.
  cbn [self radio trace] in *.
  destruct (stop_raises (radio w 0%nat)).
  - exists None, (self w1), [scanner_start; sleep 12; scanner_stop].
    unfold after_window. rewrite Hr, Ht, <- !app_assoc. by repeat split.
  - cbn [self].
    exists (if truthy (found_data (self w1)) then hexlify <$> found_data (self w1) else None),
      (self w1), [scanner_start; sleep 12; scanner_stop].
    unfold after_window. rewrite Hr, Ht, <- !app_assoc.
    by destruct (truthy (found_data (self w1))).
Qed.

Lemma find_airpods_capture (w : world) ads1 device adv data ads2 :
  start_raises (radio w 0%nat) = false ->
  stop_raises (radio w 0%nat) = false ->
  adverts (radio w 0%nat) = ads1 ++ (device, adv) :: ads2 ->
  manufacturer_data adv !! AIRPODS_MANUFACTURER = Some data ->
  airpods_max_shape data ->
  Forall (fun da => ~ qualifying (snd da)) ads2 ->
  exists me,
    find_airpods w =
      (Ok (Some (hexlify data)),
       after_window me [scanner_start; sleep 12; scanner_stop] w)
    /\ found_device me = Some device /\ found_data me = Some data
    /\ debug me = debug (self w).
Proof.
  intros Hstart Hstop Hads Hmd Hs Hrest.
  unfold find_airpods, next_window, start, stop. run.
  rewrite Hstart, Hstop, Hads. cbn [self radio trace].
  rewrite (deliver_last ads1 device adv data ads2) by done. unfold exec.
  match goal with |- context [deliver ads1 ?w0] =>
    destruct (deliver_total ads1 w0) as (w1 & Hd & Hr & Ht & Hdbg) end.
  rewrite Hd. cbn [snd captured exec set_found self radio trace found_data].
  destruct Hs as [Hlen _]. destruct data as [| b0 rest]; [done |].
  cbn [truthy fmap option_fmap option_map].
  exists {| MIN_RSSI := MIN_RSSI (self w1); debug := debug (self w1);
            found_device := Some device; found_data := Some (b0 :: rest) |}.
  cbn [self radio trace found_device found_data debug] in *.
  split_and!; try done.
  unfold after_window. by rewrite Hr, Ht, <- !app_assoc.
Qed.

(** The world in which the callbacks of a window run. *)
Lemma find_airpods_run (w : world) :
  find_airpods w =
    if start_raises (radio w 0%nat)
    then (Ok None, after_window (self w) [scanner_start] w)
    else
      let me := self (exec (deliver (adverts (radio w 0%nat)))
                        (after_window (self w) [scanner_start] w)) in
      (Ok (if stop_raises (radio w 0%nat) then None
           else if truthy (found_data me) then hexlify <$> found_data me else None),
       after_window me [scanner_start; sleep 12; scanner_stop] w).
Proof.
  unfold find_airpods, next_window, start, stop. run.
  destruct (start_raises (radio w 0%nat)); [done |].
  cbn [self radio trace]. unfold after_window.
  match goal with |- context [deliver ?ads ?w0] =>
    destruct (deliver_total ads w0) as (w1 & Hd & Hr & Ht & _) end.
  rewrite !Hd. cbn [snd self radio trace] in *.
  rewrite Hr, Ht, <- !app_assoc. cbn [app].
  destruct (stop_raises (radio w 0%nat)); [done |].
  cbn [self]. by destruct (truthy (found_data (self w1))).
Qed.


(** ** The retry loop *)

Lemma sessions_run_app (tr1 tr2 : list event) :
  sessions_run (tr1 ++ tr2) = (sessions_run tr1 + sessions_run tr2)%nat.
Proof. unfold sessions_run. by rewrite List.filter_app, length_app. Qed.


Lemma attempts_none now max_attempts attempt rest (w w1 : world) :
  find_airpods w = (Ok None, w1) ->
  attempts now max_attempts (attempt :: rest) w =
    attempts now max_attempts rest
      (if attempt <? max_attempts - 1 then exec (asyncio_sleep 1) w1 else w1).
Proof.
  intros Hf. cbn [attempts]. run. rewrite Hf.
  by destruct (attempt <? max_attempts - 1).
Qed.

Lemma attempts_some now max_attempts attempt rest h (w w1 : world) :
  find_airpods w = (Ok (Some h), w1) ->
  attempts now max_attempts (attempt :: rest) w = decode_status now h w1.
Proof. intros Hf. cbn [attempts]. run. by rewrite Hf. Qed.

(** [decode_status] always returns, scans nothing and waits for nothing. *)
Lemma decode_status_total now hex_data (w : world) :
  exists r tr,
    decode_status now hex_data w
    = (Ok r, {| self := self w; radio := radio w; trace := trace w ++ tr |})
    /\ sessions_run tr = 0%nat /\ backoffs tr = 0%nat
    /\ (Status.status r = 0 ->
        Status.error r <> None /\ Status.battery r = None
        /\ Status.charging r = None /\ Status.model r = None).
Proof.
  destruct (decode_status_cases now hex_data w)
    as [(e & -> & _) | [(text & data & _ & _ & _ & ->)
                       | (text & data & info & _ & _ & _ & _ & ->)]].
  - eexists _, []. rewrite app_nil_r, world_eta. by split_and!.
  - eexists _, []. rewrite app_nil_r, world_eta. by split_and!.
  - eexists _, [decoder_call data]. by split_and!.
Qed.

Lemma attempts_total now max_attempts todo (w : world) :
  exists r w' tr,
    attempts now max_attempts todo w = (Ok r, w')
    /\ trace w' = trace w ++ tr
    /\ (sessions_run tr <= length todo)%nat
    /\ (Status.status r = 0 ->
        Status.error r <> None /\ Status.battery r = None
        /\ Status.charging r = None /\ Status.model r = None).
Proof.
  revert w. induction todo as [| attempt rest IH]; intros w.
  - exists not_found, w, []. rewrite app_nil_r. cbn. split_and!; try done; lia.
  - destruct (find_airpods_total w) as ([h |] & me & tr1 & Hf & Hs1 & _ & _).
    + rewrite (attempts_some _ _ _ _ _ _ _ Hf).
      destruct (decode_status_total now h (after_window me tr1 w))
        as (r & tr2 & -> & Hs2 & _ & Hzero).
      eexists r, _, (tr1 ++ tr2). cbn [trace after_window length].
      rewrite sessions_run_app, app_assoc. split_and!; try done; lia.
    + rewrite (attempts_none _ _ _ _ _ _ Hf).
      match goal with |- context [attempts _ _ rest ?w1] =>
        destruct (IH w1) as (r & w' & tr2 & -> & Ht & Hs2 & Hzero);
        assert (exists tr0, trace w1 = trace w ++ tr1 ++ tr0 /\ sessions_run tr0 = 0%nat)
          as (tr0 & Ht0 & Hs0)
      end.
      { destruct (attempt <? max_attempts - 1).
        - exists [sleep 1]. cbn. by rewrite <- app_assoc.
        - exists []. cbn. by rewrite app_nil_r. }
      exists r, w', (tr1 ++ tr0 ++ tr2). rewrite Ht, Ht0, !sessions_run_app.
      cbn [length]. rewrite <- !app_assoc. split_and!; try done; lia.
Qed.







(** ** Main results *)

(** C1. On a payload of length 27 that starts with 0x12 the decoder returns
    the low four bits of byte 12 for both [left] and [right], no [case], and
    bit 0x80 of byte 14 as the charging flag of both; bytes 0x05 and 0x80 give
    5 and charging, bytes 0x0F and 0x00 give 15 and not charging. *)
Theorem decode_airpods_max_battery_valid (data : bytes) (b12 b14 : byte) (w : world) :
  airpods_max_shape data ->
  data !! 12%nat = Some b12 ->
  data !! 14%nat = Some b14 ->
  eval (decode_airpods_max_battery data) w =
    Ok (BatteryInfo.mk (Z.land (byte_to_Z b12) 0x0F) (Z.land (byte_to_Z b12) 0x0F) None
          (Charging.mk (negb (Z.land (byte_to_Z b14) 0x80 =? 0))
                       (negb (Z.land (byte_to_Z b14) 0x80 =? 0)) None))
  /\ (b12 = x05 -> b14 = x80 ->
      eval (decode_airpods_max_battery data) w =
        Ok (BatteryInfo.mk 5 5 None (Charging.mk true true None)))
  /\ (b12 = x0f -> b14 = x00 ->
      eval (decode_airpods_max_battery data) w =
        Ok (BatteryInfo.mk 15 15 None (Charging.mk false false None))).
Proof.
  intros _ H12 H14. unfold eval.
  rewrite (decoder_in_range data b12 b14 w H12 H14). cbn [fst].
  split; [done |]. split; intros -> ->; reflexivity.
Qed.

Lemma decode_airpods_max_battery_valid_witness :
  eval (decode_airpods_max_battery (sample_payload x05 x80)) (fresh []) =
    Ok (BatteryInfo.mk 5 5 None (Charging.mk true true None))
  /\ eval (decode_airpods_max_battery (sample_payload x0f x00)) (fresh []) =
       Ok (BatteryInfo.mk 15 15 None (Charging.mk false false None)).
Proof.
  split.
  - apply (decode_airpods_max_battery_valid (sample_payload x05 x80) x05 x80 (fresh []));
      try reflexivity. split; reflexivity.
  - apply (decode_airpods_max_battery_valid (sample_payload x0f x00) x0f x00 (fresh []));
      try reflexivity. split; reflexivity.
Defined.

(** C2. A payload whose length is not 27 or whose first byte is not 0x12 is
    not captured by the detection callback, and [decode_status] on its
    hexadecimal form returns status 0 with error "Unsupported device type"
    without entering the battery decoder (the trace is unchanged). *)
Theorem shape_rejected (data : bytes) :
  length data <> 27%nat \/ data !! 0%nat <> Some x12 ->
  (forall device adv w,
     manufacturer_data adv !! AIRPODS_MANUFACTURER = Some data ->
     detection_callback device adv w = (Ok tt, w))
  /\ (forall now w,
        eval (decode_status now (hexlify data)) w =
          Ok (Status.mk 0 None None None None None (Some (Msg "Unsupported device type")))
        /\ trace (exec (decode_status now (hexlify data)) w) = trace w).
Proof.
  intros Hbad.
  assert (~ airpods_max_shape data) as Hn by (intros [? ?]; tauto).
  split.
  - intros device adv w Hmd. apply detection_callback_skip.
    intros (data' & Hmd' & Hs). congruence.
  - intros now w. unfold eval, exec. by rewrite decode_status_no_shape.
Qed.

Lemma shape_rejected_witness :
  (length [x12; x00] <> 27%nat \/ [x12; x00] !! 0%nat <> Some x12)
  /\ eval (decode_status "2024-01-01 00:00:00" (hexlify [x12; x00])) (fresh []) =
       Ok (Status.mk 0 None None None None None (Some (Msg "Unsupported device type"))).
Proof.
  split; [left; cbn; lia |].
  apply (shape_rejected [x12; x00]). left; cbn; lia.
Defined.

(** C3, as the code has it. Each qualifying advertisement replaces the
    captured device and payload, so a scan window ends holding the last
    qualifying advertisement it saw, and [find_airpods] returns that one. *)
Theorem last_match_wins ads1 device adv data ads2 (w : world) :
  manufacturer_data adv !! AIRPODS_MANUFACTURER = Some data ->
  airpods_max_shape data ->
  Forall (fun da => ~ qualifying (snd da)) ads2 ->
  (found_device (self (exec (deliver (ads1 ++ (device, adv) :: ads2)) w)) = Some device
   /\ found_data (self (exec (deliver (ads1 ++ (device, adv) :: ads2)) w)) = Some data)
  /\ (start_raises (radio w 0%nat) = false ->
      stop_raises (radio w 0%nat) = false ->
      adverts (radio w 0%nat) = ads1 ++ (device, adv) :: ads2 ->
      eval find_airpods w = Ok (Some (hexlify data))).
Proof.
  intros Hmd Hs Hrest. split.
  - unfold exec. by rewrite (deliver_last ads1 device adv data ads2).
  - intros Hstart Hstop Hads.
    destruct (find_airpods_capture w ads1 device adv data ads2) as (me & Hf & _);
      try done.
    unfold eval. by rewrite Hf.
Qed.

Lemma last_match_wins_witness :
  found_data (self (exec (deliver
      [(headphones_a, advert (-60) (sample_payload x05 x80));
       (headphones_b, advert (-40) (sample_payload x0f x00))]) (fresh [])))
  = Some (sample_payload x0f x00).
Proof.
  apply (last_match_wins [(headphones_a, advert (-60) (sample_payload x05 x80))]
           headphones_b (advert (-40) (sample_payload x0f x00))
           (sample_payload x0f x00) [] (fresh [])).
  - reflexivity.
  - split; reflexivity.
  - constructor.
Defined.

(** C3 as stated fails: a second qualifying advertisement in the same window
    changes what the first one captured. *)
Lemma first_match_overwritten :
  ~ (forall (w : world) device1 adv1 device2 adv2,
       qualifying adv1 -> qualifying adv2 ->
       self (exec (deliver [(device1, adv1); (device2, adv2)]) w)
       = self (exec (deliver [(device1, adv1)]) w)).
Proof.
  intros H.
  specialize (H (fresh []) headphones_a (advert (-60) (sample_payload x05 x80))
                headphones_b (advert (-40) (sample_payload x0f x00))).
  assert (forall r b12 b14, qualifying (advert r (sample_payload b12 b14))) as Hq.
  { intros r b12 b14. exists (sample_payload b12 b14). split; [reflexivity |].
    split; reflexivity. }
  specialize (H (Hq _ _ _) (Hq _ _ _)).
  apply (f_equal found_data) in H. vm_compute in H. discriminate H.
Qed.

(** C4, evaluated on the code: an advertisement at -100 dBm, below the
    monitor's [MIN_RSSI] of -70, is captured all the same. *)
Theorem weak_signal_captured :
  (inject_Z (rssi (advert (-100) (sample_payload x05 x80)))
   < MIN_RSSI (self (fresh [])))%Q
  /\ found_data (self (exec
       (detection_callback headphones_a (advert (-100) (sample_payload x05 x80)))
       (fresh [])))
     = Some (sample_payload x05 x80).
Proof. split; reflexivity. Qed.

(** C5. The decoder returns on every byte sequence and never lets an
    exception out; when offset 12 or 14 is out of range (fewer than 15
    bytes) the result is the failure value: -1 for left and right, charging
    false for both, no case. *)
Theorem decode_airpods_max_battery_total (data : bytes) (w : world) :
  (exists info, eval (decode_airpods_max_battery data) w = Ok info)
  /\ ((length data < 15)%nat ->
      eval (decode_airpods_max_battery data) w =
        Ok (BatteryInfo.mk (-1) (-1) None (Charging.mk false false None))).
Proof.
  split.
  - destruct (decoder_cases data w) as [(b12 & b14 & H12 & H14) | Hlt].
    + eexists. unfold eval. by rewrite (decoder_in_range data b12 b14 w H12 H14).
    + eexists. unfold eval. by rewrite decoder_out_of_range.
  - intros Hlt. unfold eval. by rewrite decoder_out_of_range.
Qed.

Lemma decode_airpods_max_battery_total_witness :
  eval (decode_airpods_max_battery [x12; x00; x07]) (fresh []) =
    Ok (BatteryInfo.mk (-1) (-1) None (Charging.mk false false None)).
Proof.
  apply (decode_airpods_max_battery_total [x12; x00; x07] (fresh [])). cbn. lia.
Defined.




(** C7. Two runs of [decode_status] on the same input, at whatever times and
    in whatever state of the monitor, both return, and agree on status,
    model, battery, charging and error. *)
Theorem decode_status_deterministic (hex_data : bytes) (now1 now2 : string) (w1 w2 : world) :
  exists r1 r2,
    eval (decode_status now1 hex_data) w1 = Ok r1
    /\ eval (decode_status now2 hex_data) w2 = Ok r2
    /\ Status.status r1 = Status.status r2
    /\ Status.model r1 = Status.model r2
    /\ Status.battery r1 = Status.battery r2
    /\ Status.charging r1 = Status.charging r2
    /\ Status.error r1 = Status.error r2.
Proof.
  unfold eval.
  destruct (decode_status_cases now1 hex_data w1)
    as [(e1 & -> & Hc1) | [(t1 & d1 & Hu1 & Hf1 & Hn1 & ->)
                          | (t1 & d1 & i1 & Hu1 & Hf1 & Hs1 & Hi1 & ->)]];
  destruct (decode_status_cases now2 hex_data w2)
    as [(e2 & -> & Hc2) | [(t2 & d2 & Hu2 & Hf2 & Hn2 & ->)
                          | (t2 & d2 & i2 & Hu2 & Hf2 & Hs2 & Hi2 & ->)]];
  eexists _, _; cbn [fst]; (split; [reflexivity |]); (split; [reflexivity |]); cbn;
  try (destruct Hc1 as [Hc1 | (t1 & Hu1 & Hc1)]);
  try (destruct Hc2 as [Hc2 | (t2 & Hu2 & Hc2)]);
  try (split_and!; congruence).
  assert (d1 = d2) as -> by congruence.
  destruct (decoder_cases d2 w1) as [(b12 & b14 & H12 & H14) | Hlt].
  - unfold eval in Hi1, Hi2.
    rewrite (decoder_in_range d2 b12 b14 _ H12 H14) in Hi1.
    rewrite (decoder_in_range d2 b12 b14 _ H12 H14) in Hi2. by simplify_eq/=.
  - destruct Hs1. lia.
Qed.

(** C8. A result with status 0, from [decode_status] or from [get_status],
    has an error entry and no battery, charging or model entry. *)
Theorem status_zero_error (now : string) :
  (forall hex_data w r,
     eval (decode_status now hex_data) w = Ok r ->
     Status.status r = 0 ->
     Status.error r <> None /\ Status.battery r = None
     /\ Status.charging r = None /\ Status.model r = None)
  /\ (forall max_attempts w r,
        eval (get_status now max_attempts) w = Ok r ->
        Status.status r = 0 ->
        Status.error r <> None /\ Status.battery r = None
        /\ Status.charging r = None /\ Status.model r = None).
Proof.
  split.
  - intros hex_data w r Hr.
    destruct (decode_status_total now hex_data w) as (r' & tr & Hd & _ & _ & Hzero).
    unfold eval in Hr. rewrite Hd in Hr. by simplify_eq/=.
  - intros max_attempts w r Hr. unfold get_status, eval in Hr.
    destruct (attempts_total now max_attempts (range max_attempts) w)
      as (r' & w' & tr & Ha & _ & _ & Hzero).
    rewrite Ha in Hr. by simplify_eq/=.
Qed.

Lemma status_zero_error_witness :
  Status.error (Status.mk 0 None None None None None (Some (str ValueError))) <> None
  /\ Status.error not_found <> None.
Proof.
  split.
  - apply (proj1 (status_zero_error "2024-01-01 00:00:00") [x12; x00] (fresh []));
      reflexivity.
  - apply (proj2 (status_zero_error "2024-01-01 00:00:00") 3 (fresh [])); reflexivity.
Defined.



(** C10. Whatever the payload, the decoder's result has left equal to right,
    no case battery and no case charging entry, and a battery value that is
    -1 or lies in 0..15. *)
Theorem decode_airpods_max_battery_invariant (data : bytes) (w : world) :
  exists info,
    eval (decode_airpods_max_battery data) w = Ok info
    /\ BatteryInfo.left info = BatteryInfo.right info
    /\ BatteryInfo.case info = None
    /\ Charging.case (BatteryInfo.charging info) = None
    /\ (BatteryInfo.left info = -1 \/ 0 <= BatteryInfo.left info <= 15).
Proof.
  destruct (decoder_cases data w) as [(b12 & b14 & H12 & H14) | Hlt].
  - eexists. unfold eval. rewrite (decoder_in_range data b12 b14 w H12 H14).
    cbn. repeat split; try done. right. apply low_nibble_range.
  - eexists. unfold eval. rewrite decoder_out_of_range by done.
    cbn. repeat split; try done. by left.
Qed.

(** ** Further properties: capture state *)

Lemma detection_callback_cases device adv (w : world) :
  (exists data, manufacturer_data adv !! AIRPODS_MANUFACTURER = Some data
                /\ airpods_max_shape data
                /\ detection_callback device adv w = (Ok tt, captured device data w))
  \/ (~ qualifying adv /\ detection_callback device adv w = (Ok tt, w)).
Proof.
  destruct (manufacturer_data adv !! AIRPODS_MANUFACTURER) as [data |] eqn:Hmd.
  - destruct (decide (airpods_max_shape data)) as [Hs | Hs].
    + left. exists data. split_and!; try done. by apply detection_callback_capture.
    + right. assert (~ qualifying adv) as Hq.
      { intros (data' & Hmd' & Hs'). congruence. }
      split; [done |]. by apply detection_callback_skip.
  - right. assert (~ qualifying adv) as Hq.
    { intros (data' & Hmd' & Hs'). congruence. }
    split; [done |]. by apply detection_callback_skip.
Qed.

(** A property of the monitor that every callback keeps is kept by a whole
    delivery. *)
Lemma deliver_keeps (P : AirPodsMonitor -> Prop) :
  (forall device adv w, P (self w) -> P (self (exec (detection_callback device adv) w))) ->
  forall ads w, P (self w) -> P (self (exec (deliver ads) w)).
Proof.
  intros Hstep ads. induction ads as [| [device adv] rest IH]; intros w HP; [done |].
  unfold exec. cbn [deliver]. run.
  destruct (detection_callback_total device adv w) as (w1 & Hd & _).
  specialize (Hstep device adv w HP). unfold exec in Hstep. rewrite Hd in *.
  by apply IH.
Qed.

Lemma detection_callback_consistent device adv (w : world) :
  consistent (self w) -> consistent (self (exec (detection_callback device adv) w)).
Proof.
  intros Hc. unfold exec.
  destruct (detection_callback_cases device adv w)
    as [(data & _ & Hs & ->) | (_ & ->)]; [| done].
  right. by exists device, data.
Qed.

Lemma detection_callback_keeps_capture device adv (w : world) :
  found_data (self w) <> None ->
  found_data (self (exec (detection_callback device adv) w)) <> None.
Proof.
  intros Hc. unfold exec.
  destruct (detection_callback_cases device adv w)
    as [(data & _ & Hs & ->) | (_ & ->)]; done.
Qed.

Lemma find_airpods_keeps (P : AirPodsMonitor -> Prop) :
  (forall device adv w, P (self w) -> P (self (exec (detection_callback device adv) w))) ->
  forall w, P (self w) -> P (self (exec find_airpods w)).
Proof.
  intros Hstep w HP. unfold exec. rewrite find_airpods_run.
  destruct (start_raises (radio w 0%nat)); [done |].
  cbn [snd after_window self]. by apply deliver_keeps.
Qed.

Lemma decode_status_self now hex_data (w : world) :
  self (exec (decode_status now hex_data) w) = self w.
Proof.
  destruct (decode_status_total now hex_data w) as (r & tr & Hd & _).
  unfold exec. by rewrite Hd.
Qed.

Lemma attempts_keeps (P : AirPodsMonitor -> Prop) now max_attempts :
  (forall device adv w, P (self w) -> P (self (exec (detection_callback device adv) w))) ->
  forall todo w, P (self w) -> P (self (exec (attempts now max_attempts todo) w)).
Proof.
  intros Hstep todo. induction todo as [| attempt rest IH]; intros w HP; [done |].
  pose proof (find_airpods_keeps P Hstep w HP) as HP1.
  destruct (find_airpods_total w) as ([h |] & me & tr1 & Hf & _).
  - unfold exec in *. rewrite (attempts_some _ _ _ _ _ _ _ Hf).
    rewrite Hf in HP1. by rewrite (decode_status_self now h _ : self (snd _) = _).
  - unfold exec in *. rewrite (attempts_none _ _ _ _ _ _ Hf). rewrite Hf in HP1.
    apply IH. by destruct (attempt <? max_attempts - 1).
Qed.

Lemma consistent_truthy (me : AirPodsMonitor) :
  consistent me ->
  found_data me = None /\ truthy (found_data me) = false
  \/ exists data, found_data me = Some data /\ airpods_max_shape data
                  /\ truthy (found_data me) = true.
Proof.
  intros [[_ Hn] | (device & data & _ & Hd & Hs)].
  - left. by rewrite Hn.
  - right. exists data. rewrite Hd. split_and!; try done.
    destruct Hs as [Hlen _]. by destruct data.
Qed.

Lemma find_airpods_some (w w1 : world) (h : bytes) :
  consistent (self w) ->
  find_airpods w = (Ok (Some h), w1) ->
  exists data, h = hexlify data /\ airpods_max_shape data
               /\ found_data (self w1) = Some data.
Proof.
  intros Hc Hf.
  pose proof (find_airpods_keeps consistent detection_callback_consistent w Hc) as Hc1.
  unfold exec in Hc1. rewrite Hf in Hc1. cbn [snd] in Hc1.
  rewrite find_airpods_run in Hf.
  destruct (start_raises (radio w 0%nat)); [by simplify_eq |].
  cbn zeta in Hf. destruct (stop_raises (radio w 0%nat)); [by simplify_eq |].
  injection Hf as Hh Hw. subst w1. cbn [after_window self] in *.
  destruct (consistent_truthy _ Hc1) as [[_ Ht] | (data & Hd & Hs & Ht)];
    rewrite Ht in Hh; [done |].
  exists data. rewrite Hd in Hh. cbn in Hh. by simplify_eq.
Qed.

Lemma find_airpods_debug (w : world) :
  debug (self (exec find_airpods w)) = debug (self w).
Proof.
  apply (find_airpods_keeps (fun me => debug me = debug (self w))); [| done].
  intros device adv w0 H0. unfold exec.
  destruct (detection_callback_total device adv w0) as (w1 & -> & _ & _ & Hd).
  cbn [snd]. congruence.
Qed.

(** What a run of the retry loop can return from a consistent monitor. *)
Lemma attempts_outcome now max_attempts todo : forall (w : world),
  consistent (self w) ->
  exists r w',
    attempts now max_attempts todo w = (Ok r, w')
    /\ (r = not_found
        \/ exists data b12 b14,
             found_data (self w') = Some data
             /\ airpods_max_shape data
             /\ data !! 12%nat = Some b12 /\ data !! 14%nat = Some b14
             /\ r = Status.mk 1 (Some "AirPods Max"%string)
                      (Some (Battery.mk (Z.land (byte_to_Z b12) 0x0F)
                                        (Z.land (byte_to_Z b12) 0x0F) None))
                      (Some (Charging.mk (negb (Z.land (byte_to_Z b14) 0x80 =? 0))
                                         (negb (Z.land (byte_to_Z b14) 0x80 =? 0)) None))
                      (Some now)
                      (Some (if debug (self w)
                             then Some (map Byte.to_N (hexlify data)) else None))
                      None).
Proof.
  induction todo as [| attempt rest IH]; intros w Hc.
  - exists not_found, w. split; [done | by left].
  - pose proof (find_airpods_keeps consistent detection_callback_consistent w Hc) as Hc1.
    pose proof (find_airpods_debug w) as Hdbg.
    unfold exec in Hc1, Hdbg.
    destruct (find_airpods_total w) as ([h |] & me & tr1 & Hf & _).
    + rewrite (attempts_some _ _ _ _ _ _ _ Hf).
      destruct (find_airpods_some w _ h Hc Hf) as (data & -> & Hs & Hfound).
      rewrite Hf in Hdbg. cbn [snd] in Hdbg.
      destruct (decode_status_shape now data (after_window me tr1 w) Hs)
        as (info & Hinfo & ->).
      destruct (decoder_cases data w) as [(b12 & b14 & H12 & H14) | Hlt];
        [| destruct Hs; lia].
      unfold eval in Hinfo. rewrite (decoder_in_range data b12 b14 _ H12 H14) in Hinfo.
      injection Hinfo as <-.
      eexists _, _. split; [reflexivity |]. right. exists data, b12, b14.
      cbn [BatteryInfo.left BatteryInfo.right BatteryInfo.charging].
      rewrite Hdbg. by split_and!.
    + rewrite (attempts_none _ _ _ _ _ _ Hf). rewrite Hf in Hc1, Hdbg. cbn [snd] in *.
      match goal with |- context [attempts _ _ rest ?w1] =>
        destruct (IH w1) as (r & w' & -> & Hr);
        [by destruct (attempt <? max_attempts - 1) |];
        assert (debug (self w1) = debug (self w)) as Hd1
          by (by destruct (attempt <? max_attempts - 1))
      end.
      exists r, w'. split; [done |]. by rewrite <- Hd1.
Qed.

(** X1. A new monitor holds no capture, and the callback, a scan window and
    [get_status] all keep the two capture fields set together and set only to
    a payload of length 27 that starts with 0x12. *)
Theorem capture_invariant (now : string) (max_attempts : Z) :
  (forall dbg, consistent (init dbg))
  /\ (forall w, consistent (self w) ->
        (forall device adv, consistent (self (exec (detection_callback device adv) w)))
        /\ consistent (self (exec find_airpods w))
        /\ consistent (self (exec (get_status now max_attempts) w))).
Proof.
  split; [by left |]. intros w Hc. split_and!.
  - intros device adv. by apply detection_callback_consistent.
  - by apply find_airpods_keeps; [apply detection_callback_consistent |].
  - unfold get_status.
    by apply attempts_keeps; [apply detection_callback_consistent |].
Qed.

Lemma capture_invariant_witness :
  consistent (self (exec (get_status "2024-01-01 00:00:00" 3)
    (fresh [hears [(headphones_a, advert (-60) (sample_payload x05 x80))]]))).
Proof.
  apply (proj2 (capture_invariant "2024-01-01 00:00:00" 3)). by left.
Defined.

(** X2. A capture is never cleared: once [found_data] is set, it is still set
    after any callback, any scan window and any [get_status]. *)
Theorem capture_never_cleared (now : string) (max_attempts : Z) (w : world) :
  found_data (self w) <> None ->
  (forall device adv,
     found_data (self (exec (detection_callback device adv) w)) <> None)
  /\ found_data (self (exec find_airpods w)) <> None
  /\ found_data (self (exec (get_status now max_attempts) w)) <> None.
Proof.
  intros Hc. split_and!.
  - intros device adv. by apply detection_callback_keeps_capture.
  - by apply (find_airpods_keeps (fun me => found_data me <> None));
      [apply detection_callback_keeps_capture |].
  - unfold get_status.
    by apply (attempts_keeps (fun me => found_data me <> None));
      [apply detection_callback_keeps_capture |].
Qed.

Lemma capture_never_cleared_witness :
  found_data (self (exec (get_status "2024-01-01 00:00:00" 3) (primed []))) <> None.
Proof.
  apply (capture_never_cleared "2024-01-01 00:00:00" 3 (primed [])). by vm_compute.
Defined.

Lemma find_airpods_stale (w : world) (data : bytes) :
  found_data (self w) = Some data ->
  airpods_max_shape data ->
  start_raises (radio w 0%nat) = false ->
  stop_raises (radio w 0%nat) = false ->
  Forall (fun da => ~ qualifying (snd da)) (adverts (radio w 0%nat)) ->
  find_airpods w =
    (Ok (Some (hexlify data)),
     after_window (self w) [scanner_start; sleep 12; scanner_stop] w).
Proof.
  intros Hd [Hlen H0] Hstart Hstop Hquiet.
  rewrite find_airpods_run, Hstart, Hstop. cbn zeta.
  unfold exec. rewrite deliver_skip by done. cbn [snd after_window self].
  rewrite Hd. by destruct data.
Qed.

(** X3. A scan window in which nothing qualifies returns the payload captured
    before it: [find_airpods] reports the old [found_data] as if it had just
    been seen, and leaves the monitor as it was. *)
Theorem stale_capture_returned (w : world) (data : bytes) :
  found_data (self w) = Some data ->
  airpods_max_shape data ->
  start_raises (radio w 0%nat) = false ->
  stop_raises (radio w 0%nat) = false ->
  Forall (fun da => ~ qualifying (snd da)) (adverts (radio w 0%nat)) ->
  eval find_airpods w = Ok (Some (hexlify data))
  /\ self (exec find_airpods w) = self w
  /\ trace (exec find_airpods w) = trace w ++ [scanner_start; sleep 12; scanner_stop].
Proof.
  intros Hd Hs Hstart Hstop Hquiet. unfold eval, exec.
  by rewrite (find_airpods_stale w data).
Qed.

Lemma stale_capture_returned_witness :
  eval find_airpods (primed []) = Ok (Some (hexlify (sample_payload x05 x80))).
Proof.
  apply (stale_capture_returned (primed []) (sample_payload x05 x80));
    try reflexivity.
  - split; reflexivity.
  - constructor.
Defined.

(** X4. After a capture, polling does not report "not found" again while the
    scanner works: from a consistent monitor that holds a capture,
    [get_status] with at least one attempt returns status 1 after a single
    scan window, whatever that window delivers. *)
Theorem polling_after_capture (now : string) (max_attempts : Z) (w : world) :
  consistent (self w) ->
  found_data (self w) <> None ->
  start_raises (radio w 0%nat) = false ->
  stop_raises (radio w 0%nat) = false ->
  1 <= max_attempts ->
  exists r w' data,
    get_status now max_attempts w = (Ok r, w')
    /\ Status.status r = 1
    /\ found_data (self w') = Some data
    /\ trace w' = trace w ++ [scanner_start; sleep 12; scanner_stop; decoder_call data].
Proof.
  intros Hc Hset Hstart Hstop Hmax.
  unfold get_status, range.
  destruct (Z.to_nat max_attempts) as [| n] eqn:Hn; [lia |]. cbn [seq map].
  pose proof (find_airpods_keeps consistent detection_callback_consistent w Hc) as Hc1.
  pose proof (find_airpods_keeps (fun me => found_data me <> None)
                detection_callback_keeps_capture w Hset) as Hset1.
  unfold exec in Hc1, Hset1. cbn beta in Hset1.
  pose proof (find_airpods_run w) as Hf. rewrite Hstart, Hstop in Hf. cbn zeta in Hf.
  rewrite Hf in Hc1, Hset1. cbn [snd after_window self] in Hc1, Hset1.
  destruct (consistent_truthy _ Hc1) as [[Hnone _] | (data & Hd & Hs & Ht)]; [done |].
  rewrite Ht, Hd in Hf. cbn [fmap option_fmap option_map] in Hf.
  rewrite (attempts_some _ _ _ _ _ _ _ Hf).
  destruct (decode_status_shape now data
              (after_window (self (exec (deliver (adverts (radio w 0%nat)))
                                     (after_window (self w) [scanner_start] w)))
                 [scanner_start; sleep 12; scanner_stop] w) Hs)
    as (info & _ & ->).
  eexists _, _, data. split_and!; try done.
  cbn [entered after_window trace]. by rewrite <- app_assoc.
Qed.

Lemma polling_after_capture_witness :
  exists r w' data,
    get_status "2024-01-01 00:00:00" 3 (primed []) = (Ok r, w')
    /\ Status.status r = 1
    /\ found_data (self w') = Some data
    /\ trace w' = trace (primed [])
                  ++ [scanner_start; sleep 12; scanner_stop; decoder_call data].
Proof.
  apply (polling_after_capture "2024-01-01 00:00:00" 3 (primed []));
    try reflexivity; try lia; try (by vm_compute).
  right. exists headphones_a, (sample_payload x05 x80).
  split; [reflexivity |]. split; [reflexivity |]. split; reflexivity.
Defined.

(** X5. From a consistent monitor a [get_status] call has two outcomes only:
    status 0 with error "AirPods Max not found", or status 1 for model
    "AirPods Max" decoded from the payload the monitor holds when the call
    ends: left and right are the low four bits of its byte 12 (so between 0
    and 15), both charging flags are bit 0x80 of its byte 14, there are no
    case entries.  It never reports "Unsupported device type", an exception
    text or the sentinel -1. *)
Theorem get_status_outcomes (now : string) (max_attempts : Z) (w : world) :
  consistent (self w) ->
  exists r w',
    get_status now max_attempts w = (Ok r, w')
    /\ (r = Status.mk 0 None None None None None (Some (Msg "AirPods Max not found"))
        \/ exists data b12 b14,
             found_data (self w') = Some data
             /\ airpods_max_shape data
             /\ data !! 12%nat = Some b12
             /\ data !! 14%nat = Some b14
             /\ 0 <= Z.land (byte_to_Z b12) 0x0F <= 15
             /\ r = Status.mk 1 (Some "AirPods Max"%string)
                      (Some (Battery.mk (Z.land (byte_to_Z b12) 0x0F)
                                        (Z.land (byte_to_Z b12) 0x0F) None))
                      (Some (Charging.mk (negb (Z.land (byte_to_Z b14) 0x80 =? 0))
                                         (negb (Z.land (byte_to_Z b14) 0x80 =? 0)) None))
                      (Some now)
                      (Some (if debug (self w)
                             then Some (map Byte.to_N (hexlify data)) else None))
                      None).
Proof.
  intros Hc.
  destruct (attempts_outcome now max_attempts (range max_attempts) w Hc)
    as (r & w' & Ha & [-> | (data & b12 & b14 & Hd & Hs & H12 & H14 & ->)]).
  - exists not_found, w'. split; [done | by left].
  - eexists _, w'. split; [done |]. right.
    exists data, b12, b14. split_and!; try done; apply low_nibble_range.
Qed.

Lemma get_status_outcomes_witness :
  exists w',
    get_status "2024-01-01 00:00:00" 3
      (fresh [hears [(headphones_a, advert (-60) (sample_payload x05 x80))]])
    = (Ok (Status.mk 1 (Some "AirPods Max"%string)
             (Some (Battery.mk 5 5 None))
             (Some (Charging.mk true true None))
             (Some "2024-01-01 00:00:00"%string) (Some None) None),
       w')
    /\ found_data (self w') = Some (sample_payload x05 x80).
Proof.
  destruct (get_status_outcomes "2024-01-01 00:00:00" 3
              (fresh [hears [(headphones_a, advert (-60) (sample_payload x05 x80))]]))
    as (r & w' & Hg & Hcases); [by left |].
  assert (get_status "2024-01-01 00:00:00" 3
            (fresh [hears [(headphones_a, advert (-60) (sample_payload x05 x80))]])
          = (Ok (Status.mk 1 (Some "AirPods Max"%string)
                   (Some (Battery.mk 5 5 None))
                   (Some (Charging.mk true true None))
                   (Some "2024-01-01 00:00:00"%string) (Some None) None),
             w')
          /\ found_data (self w') = Some (sample_payload x05 x80)) as Hrun.
  { rewrite Hg. revert Hg. vm_compute. intros [= <- <-]. by split. }
  exists w'. exact Hrun.
Defined.

(** X6. When the scanner fails to stop, the window returns nothing although
    the callback has stored a qualifying payload; the payload stays in
    [found_data], and the next window that works returns it even if nothing
    qualifies there. *)
Theorem stop_failure_defers_capture (w : world) ads1 device adv data ads2 :
  start_raises (radio w 0%nat) = false ->
  stop_raises (radio w 0%nat) = true ->
  adverts (radio w 0%nat) = ads1 ++ (device, adv) :: ads2 ->
  manufacturer_data adv !! AIRPODS_MANUFACTURER = Some data ->
  airpods_max_shape data ->
  Forall (fun da => ~ qualifying (snd da)) ads2 ->
  eval find_airpods w = Ok None
  /\ found_device (self (exec find_airpods w)) = Some device
  /\ found_data (self (exec find_airpods w)) = Some data
  /\ (start_raises (radio w 1%nat) = false ->
      stop_raises (radio w 1%nat) = false ->
      Forall (fun da => ~ qualifying (snd da)) (adverts (radio w 1%nat)) ->
      eval find_airpods (exec find_airpods w) = Ok (Some (hexlify data))).
Proof.
  intros Hstart Hstop Hads Hmd Hs Hrest.
  assert (found_device (self (exec find_airpods w)) = Some device
          /\ found_data (self (exec find_airpods w)) = Some data) as [Hdev Hdata].
  { unfold exec. rewrite find_airpods_run, Hstart, Hstop, Hads. cbn zeta.
    unfold exec. by rewrite (deliver_last ads1 device adv data ads2). }
  split_and!; try done.
  - unfold eval. by rewrite find_airpods_run, Hstart, Hstop.
  - intros Hstart1 Hstop1 Hquiet1.
    assert (radio (exec find_airpods w) 0%nat = radio w 1%nat) as Hradio.
    { unfold exec. rewrite find_airpods_run, Hstart. done. }
    unfold eval.
    rewrite (find_airpods_stale (exec find_airpods w) data); try done;
      by rewrite Hradio.
Qed.

Lemma stop_failure_defers_capture_witness :
  eval find_airpods
    (fresh [interrupted [(headphones_a, advert (-60) (sample_payload x05 x80))]])
  = Ok None
  /\ eval find_airpods
       (exec find_airpods
          (fresh [interrupted [(headphones_a, advert (-60) (sample_payload x05 x80))]]))
     = Ok (Some (hexlify (sample_payload x05 x80))).
Proof.
  destruct (stop_failure_defers_capture
              (fresh [interrupted [(headphones_a, advert (-60) (sample_payload x05 x80))]])
              [] headphones_a (advert (-60) (sample_payload x05 x80))
              (sample_payload x05 x80) [])
    as (Hnone & _ & _ & Hnext); try reflexivity.
  - split; reflexivity.
  - constructor.
  - split; [exact Hnone |]. apply Hnext; try reflexivity. constructor.
Defined.

(** ** Further properties: decoding and signal strength *)

(** X7. On any input [decode_status] returns without touching the monitor or
    the radio.  Its result has status 0 and the decoder was not entered, or
    it has status 1 for model "AirPods Max" with equal left and right values
    between 0 and 15 and the decoder was entered once, on a payload of the
    AirPods Max shape: the sentinel -1 of the decoder cannot come out of
    [decode_status]. *)
Theorem decode_status_results (now : string) (hex_data : bytes) (w : world) :
  exists r,
    eval (decode_status now hex_data) w = Ok r
    /\ self (exec (decode_status now hex_data) w) = self w
    /\ radio (exec (decode_status now hex_data) w) = radio w
    /\ ((Status.status r = 0
         /\ trace (exec (decode_status now hex_data) w) = trace w)
        \/ exists data v c raw,
             airpods_max_shape data
             /\ 0 <= v <= 15
             /\ r = Status.mk 1 (Some "AirPods Max"%string)
                      (Some (Battery.mk v v None))
                      (Some (Charging.mk c c None))
                      (Some now) (Some raw) None
             /\ trace (exec (decode_status now hex_data) w)
                = trace w ++ [decoder_call data]).
Proof.
  unfold eval, exec.
  destruct (decode_status_cases now hex_data w)
    as [(e & -> & _) | [(text & data & _ & _ & _ & ->)
                       | (text & data & info & _ & _ & Hs & Hinfo & ->)]].
  - eexists. split_and!; try done. by left.
  - eexists. split_and!; try done. by left.
  - destruct (decoder_cases data w) as [(b12 & b14 & H12 & H14) | Hlt];
      [| destruct Hs; lia].
    unfold eval in Hinfo. rewrite (decoder_in_range data b12 b14 _ H12 H14) in Hinfo.
    injection Hinfo as <-.
    eexists. split_and!; try done. right.
    exists data, (Z.land (byte_to_Z b12) 0x0F),
      (negb (Z.land (byte_to_Z b14) 0x80 =? 0)),
      (if debug (self w) then Some text else None).
    split_and!; try done; apply low_nibble_range.
Qed.

Lemma detection_callback_retuned threshold f device adv (w : world) :
  detection_callback device
    {| rssi := f (rssi adv); manufacturer_data := manufacturer_data adv |}
    (retuned threshold f w)
  = (Ok tt, retuned threshold f (exec (detection_callback device adv) w)).
Proof.
  unfold exec.
  destruct (detection_callback_cases device adv w)
    as [(data & Hmd & Hs & ->) | (Hq & ->)].
  - by rewrite (detection_callback_capture _ _ data).
  - by rewrite detection_callback_skip.
Qed.

Lemma deliver_retuned threshold f ads : forall (w : world),
  deliver (adverts (resignal f {| start_raises := false; adverts := ads;
                                  stop_raises := false |}))
          (retuned threshold f w)
  = (Ok tt, retuned threshold f (exec (deliver ads) w)).
Proof.
  induction ads as [| [device adv] rest IH]; intros w; [done |].
  cbn [resignal adverts map deliver fst snd] in *. unfold exec in *. run.
  rewrite detection_callback_retuned. unfold exec.
  destruct (detection_callback_total device adv w) as (w1 & -> & _).
  cbn [snd]. by rewrite IH.
Qed.

Lemma find_airpods_retuned threshold f (w : world) :
  find_airpods (retuned threshold f w)
  = (eval find_airpods w, retuned threshold f (exec find_airpods w)).
Proof.
  unfold eval, exec. rewrite !find_airpods_run.
  cbn [retuned radio resignal start_raises stop_raises adverts].
  destruct (start_raises (radio w 0%nat)); [done |]. cbn zeta.
  change (after_window _ [scanner_start] (retuned threshold f w))
    with (retuned threshold f (after_window (self w) [scanner_start] w)).
  pose proof (deliver_retuned threshold f (adverts (radio w 0%nat))
                (after_window (self w) [scanner_start] w)) as Hd.
  cbn [resignal adverts] in Hd. unfold exec. rewrite Hd. cbn [fst snd].
  by destruct (stop_raises (radio w 0%nat)).
Qed.

Lemma decode_status_retuned threshold f now hex_data (w : world) :
  decode_status now hex_data (retuned threshold f w)
  = (eval (decode_status now hex_data) w,
     retuned threshold f (exec (decode_status now hex_data) w)).
Proof.
  unfold decode_status. run.
  destruct (utf8_decode hex_data) as [text | e]; [| done].
  destruct (fromhex text) as [data | e]; [| done].
  destruct (decide (airpods_max_shape data)) as [Hs | Hs].
  - rewrite !is_airpods_max_true by done.
    destruct (decoder_cases data w) as [(b12 & b14 & H12 & H14) | Hlt];
      [| destruct Hs; lia].
    rewrite !(decoder_in_range data b12 b14 _ H12 H14).
    cbn [entered retuned self debug]. by destruct (debug (self w)).
  - by rewrite !is_airpods_max_false.
Qed.

Lemma attempts_retuned threshold f now max_attempts todo : forall (w : world),
  attempts now max_attempts todo (retuned threshold f w)
  = (eval (attempts now max_attempts todo) w,
     retuned threshold f (exec (attempts now max_attempts todo) w)).
Proof.
  induction todo as [| attempt rest IH]; intros w; [done |].
  destruct (find_airpods_total w) as ([h |] & me & tr1 & Hf & _).
  - pose proof (find_airpods_retuned threshold f w) as Hr.
    unfold eval, exec in Hr. rewrite Hf in Hr. cbn [fst snd] in Hr.
    unfold eval, exec.
    rewrite (attempts_some _ _ _ _ _ _ _ Hf), (attempts_some _ _ _ _ _ _ _ Hr).
    apply decode_status_retuned.
  - pose proof (find_airpods_retuned threshold f w) as Hr.
    unfold eval, exec in Hr. rewrite Hf in Hr. cbn [fst snd] in Hr.
    unfold eval, exec.
    rewrite (attempts_none _ _ _ _ _ _ Hf), (attempts_none _ _ _ _ _ _ Hr).
    destruct (attempt <? max_attempts - 1); [| apply IH].
    apply (IH (exec (asyncio_sleep 1) (after_window me tr1 w))).
Qed.

(** X8. Signal strength plays no part: with any other [MIN_RSSI] on the
    monitor and any other RSSI values on the advertisements, [get_status]
    returns the same result, captures the same device and payload and makes
    the same calls. *)
Theorem signal_strength_irrelevant
    (threshold : Q) (f : Z -> Z) (now : string) (max_attempts : Z) (w : world) :
  eval (get_status now max_attempts) (retuned threshold f w)
  = eval (get_status now max_attempts) w
  /\ exec (get_status now max_attempts) (retuned threshold f w)
     = retuned threshold f (exec (get_status now max_attempts) w).
Proof.
  unfold get_status, eval, exec.
  rewrite attempts_retuned. by split.
Qed.

(** ** Further properties: scanning and waiting *)

Lemma slept_app (tr1 tr2 : list event) : slept (tr1 ++ tr2) = slept tr1 + slept tr2.
Proof.
  induction tr1 as [| e tr1 IH]; [done |].
  destruct e; cbn [app slept]; lia.
Qed.

Lemma find_airpods_trace (w : world) :
  exists found me tr,
    find_airpods w = (Ok found, after_window me tr w)
    /\ (tr = [scanner_start] \/ tr = [scanner_start; sleep 12; scanner_stop]).
Proof.
  rewrite find_airpods_run.
  destruct (start_raises (radio w 0%nat)); eexists _, _, _; split; eauto.
Qed.

Lemma decode_status_trace now hex_data (w : world) :
  exists r tr,
    decode_status now hex_data w
    = (Ok r, {| self := self w; radio := radio w; trace := trace w ++ tr |})
    /\ slept tr = 0.
Proof.
  destruct (decode_status_cases now hex_data w)
    as [(e & -> & _) | [(text & data & _ & _ & _ & ->)
                       | (text & data & info & _ & _ & _ & _ & ->)]].
  - eexists _, []. by rewrite app_nil_r, world_eta.
  - eexists _, []. by rewrite app_nil_r, world_eta.
  - by eexists _, [decoder_call data].
Qed.

Lemma attempts_slept now (m : nat) : forall (a : nat) (w : world),
  exists tr,
    trace (exec (attempts now (Z.of_nat (a + m)) (map Z.of_nat (seq a m))) w)
    = trace w ++ tr
    /\ slept tr <= Z.max 0 (13 * Z.of_nat m - 1).
Proof.
  induction m as [| m IH]; intros a w.
  - exists []. by rewrite app_nil_r.
  - destruct (find_airpods_trace w) as ([h |] & me & tr1 & Hf & Htr1).
    + cbn [seq map]. unfold exec. rewrite (attempts_some _ _ _ _ _ _ _ Hf).
      destruct (decode_status_trace now h (after_window me tr1 w)) as (r & tr2 & -> & Hs2).
      exists (tr1 ++ tr2). cbn [snd trace after_window].
      split; [by rewrite app_assoc |].
      rewrite slept_app, Hs2. destruct Htr1 as [-> | ->]; cbn; lia.
    + cbn [seq map]. unfold exec. rewrite (attempts_none _ _ _ _ _ _ Hf).
      destruct m as [| m].
      * replace (Z.of_nat a <? Z.of_nat (a + 1) - 1) with false
          by (symmetry; apply Z.ltb_ge; lia).
        exists tr1. split; [done |]. destruct Htr1 as [-> | ->]; cbn; lia.
      * replace (Z.of_nat a <? Z.of_nat (a + S (S m)) - 1) with true
          by (symmetry; apply Z.ltb_lt; lia).
        destruct (IH (S a) (exec (asyncio_sleep 1) (after_window me tr1 w)))
          as (tr2 & Ht & Hs2).
        replace (a + S (S m))%nat with (S a + S m)%nat by lia.
        unfold exec at 1 in Ht. rewrite Ht.
        exists (tr1 ++ [sleep 1] ++ tr2). split.
        -- cbn. by rewrite <- !app_assoc.
        -- rewrite !slept_app. destruct Htr1 as [-> | ->]; cbn [slept]; lia.
Qed.

(** X9. With no attempt allowed ([max_attempts] zero or negative)
    [get_status] answers "AirPods Max not found" at once: it starts no scan,
    waits for nothing and leaves the monitor and the radio as they were. *)
Theorem get_status_no_attempts (now : string) (max_attempts : Z) (w : world) :
  max_attempts <= 0 ->
  get_status now max_attempts w =
    (Ok (Status.mk 0 None None None None None (Some (Msg "AirPods Max not found"))), w).
Proof.
  intros Hmax. unfold get_status, range.
  by replace (Z.to_nat max_attempts) with 0%nat by lia.
Qed.

Lemma get_status_no_attempts_witness :
  get_status "2024-01-01 00:00:00" 0
    (primed [hears [(headphones_b, advert (-40) (sample_payload x0f x00))]])
  = (Ok (Status.mk 0 None None None None None (Some (Msg "AirPods Max not found"))),
     primed [hears [(headphones_b, advert (-40) (sample_payload x0f x00))]]).
Proof.
  apply (get_status_no_attempts "2024-01-01 00:00:00" 0). lia.
Defined.

(** X10. [get_status] with [max_attempts >= 1] spends at most
    [13 * max_attempts - 1] seconds in [asyncio.sleep]: twelve per scan
    window and one between two windows. *)
Theorem get_status_sleep_bound (now : string) (max_attempts : Z) (w : world) :
  1 <= max_attempts ->
  exists tr,
    trace (exec (get_status now max_attempts) w) = trace w ++ tr
    /\ slept tr <= 13 * max_attempts - 1.
Proof.
  intros Hmax. unfold get_status, range.
  destruct (attempts_slept now (Z.to_nat max_attempts) 0 w) as (tr & Ht & Hs).
  cbn [Nat.add] in Ht. rewrite Z2Nat.id in Ht, Hs by lia.
  exists tr. split; [done | lia].
Qed.

Lemma get_status_sleep_bound_witness :
  exists tr,
    trace (exec (get_status "2024-01-01 00:00:00" 3) (fresh [])) = trace (fresh []) ++ tr
    /\ slept tr <= 13 * 3 - 1.
Proof.
  apply (get_status_sleep_bound "2024-01-01 00:00:00" 3 (fresh [])). lia.
Defined.

(** X11. No failure of the scanner escapes a scan window, which always
    consumes one window of the radio.  When creating or starting the scanner
    raises, [find_airpods] returns nothing, having neither waited nor called
    stop nor changed the monitor.  Otherwise it waits 12 seconds and calls
    stop once; it returns nothing when stop raises, and else the hexadecimal
    form of the payload the monitor then holds, or nothing when it holds
    none. *)
Theorem scan_window_effects (w : world) :
  radio (exec find_airpods w) = (fun n => radio w (S n))
  /\ (start_raises (radio w 0%nat) = true ->
      eval find_airpods w = Ok None
      /\ self (exec find_airpods w) = self w
      /\ trace (exec find_airpods w) = trace w ++ [scanner_start])
  /\ (start_raises (radio w 0%nat) = false ->
      trace (exec find_airpods w)
      = trace w ++ [scanner_start; sleep 12; scanner_stop]
      /\ (stop_raises (radio w 0%nat) = true -> eval find_airpods w = Ok None)
      /\ (stop_raises (radio w 0%nat) = false ->
          eval find_airpods w
          = Ok (match found_data (self (exec find_airpods w)) with
                | Some (b :: rest) => Some (hexlify (b :: rest))
                | _ => None
                end))).
Proof.
  unfold eval, exec. rewrite find_airpods_run.
  destruct (start_raises (radio w 0%nat)).
  - by split_and!.
  - cbn zeta. cbn [fst snd after_window self radio trace].
    split_and!; try done. intros _. split_and!; try done.
    + by intros ->.
    + intros ->. by destruct (found_data _) as [[| b rest] |].
Qed.

Lemma scan_window_effects_witness :
  eval find_airpods
    (fresh [interrupted [(headphones_a, advert (-60) (sample_payload x05 x80))]])
  = Ok None
  /\ eval find_airpods
       (fresh [hears [(headphones_a, advert (-60) (sample_payload x05 x80))]])
     = Ok (Some (hexlify (sample_payload x05 x80))).
Proof.
  split.
  - apply (scan_window_effects
             (fresh [interrupted [(headphones_a, advert (-60) (sample_payload x05 x80))]]));
      reflexivity.
  - destruct (scan_window_effects
                (fresh [hears [(headphones_a, advert (-60) (sample_payload x05 x80))]]))
      as (_ & _ & Hok).
    destruct Hok as (_ & _ & Hret); [reflexivity |].
    rewrite Hret by reflexivity. reflexivity.
Defined.

(** ** Further properties: presentation *)

(** X12. [format_output] never fails on what the monitor produces.  On any
    result of [decode_status] it returns a text.  On a result of
    [get_status] from a consistent monitor the text is either the line
    "Error: AirPods Max not found" after the cross mark, or the headphone
    line "AirPods Max" followed by "Battery: v% " with v the left value,
    between 0 and 15, and the high-voltage sign when the left channel is
    charging; the per-channel Left/Right/Case lines never appear. *)
Theorem format_output_of_results (exception_text : exn -> pystr) (now : string) :
  (forall hex_data w,
     exists r text,
       eval (decode_status now hex_data) w = Ok r
       /\ format_output exception_text r = Text text)
  /\ (forall max_attempts w,
        consistent (self w) ->
        exists r,
          eval (get_status now max_attempts) w = Ok r
          /\ (format_output exception_text r
              = Text (cross_mark ++ lit " Error: AirPods Max not found")
              \/ exists v c,
                   0 <= v <= 15
                   /\ Status.battery r = Some (Battery.mk v v None)
                   /\ Status.charging r = Some (Charging.mk c c None)
                   /\ format_output exception_text r
                      = Text (headphone ++ lit " AirPods Max" ++ newline
                              ++ lit "Battery: " ++ py_str_int v ++ lit "% "
                              ++ (if c then high_voltage else [])))).
Proof.
  split.
  - intros hex_data w. unfold eval.
    destruct (decode_status_cases now hex_data w)
      as [(e & -> & _) | [(text & data & _ & _ & _ & ->)
                         | (text & data & info & _ & _ & _ & _ & ->)]];
      eexists _, _; (split; [reflexivity |]); reflexivity.
  - intros max_attempts w Hc. unfold eval, get_status.
    destruct (attempts_outcome now max_attempts (range max_attempts) w Hc)
      as (r & w' & -> & [-> | (data & b12 & b14 & _ & _ & _ & _ & ->)]).
    + exists not_found. split; [done |]. by left.
    + eexists. split; [reflexivity |]. right.
      exists (Z.land (byte_to_Z b12) 0x0F), (negb (Z.land (byte_to_Z b14) 0x80 =? 0)).
      split_and!; try done; apply low_nibble_range.
Qed.

Lemma format_output_of_results_witness :
  exists r,
    eval (get_status "2024-01-01 00:00:00" 3)
         (fresh [hears [(headphones_a, advert (-60) (sample_payload x05 x80))]]) = Ok r
    /\ (format_output (fun _ => []) r
        = Text (cross_mark ++ lit " Error: AirPods Max not found")
        \/ exists v c,
             0 <= v <= 15
             /\ Status.battery r = Some (Battery.mk v v None)
             /\ Status.charging r = Some (Charging.mk c c None)
             /\ format_output (fun _ => []) r
                = Text (headphone ++ lit " AirPods Max" ++ newline
                        ++ lit "Battery: " ++ py_str_int v ++ lit "% "
                        ++ (if c then high_voltage else []))).
Proof.
  apply (proj2 (format_output_of_results (fun _ => []) "2024-01-01 00:00:00") 3
           (fresh [hears [(headphones_a, advert (-60) (sample_payload x05 x80))]])).
  by left.
Defined.

(** ** Further properties: detection on a monitor without capture *)

Lemma qualifying_dec (adv : AdvertisementData) : qualifying adv \/ ~ qualifying adv.
Proof.
  destruct (manufacturer_data adv !! AIRPODS_MANUFACTURER) as [data |] eqn:Hmd.
  - destruct (decide (airpods_max_shape data)) as [Hs | Hs].
    + left. by exists data.
    + right. intros (data' & Hmd' & Hs'). congruence.
  - right. intros (data' & Hmd' & Hs'). congruence.
Qed.

(** Either no advertisement of the list qualifies, or there is a last one
    that does. *)
Lemma last_qualifying (ads : list (BLEDevice * AdvertisementData)) :
  Forall (fun da => ~ qualifying (snd da)) ads
  \/ exists ads1 device adv ads2,
       ads = ads1 ++ (device, adv) :: ads2
       /\ qualifying adv
       /\ Forall (fun da => ~ qualifying (snd da)) ads2.
Proof.
  induction ads as [| [device adv] rest IH]; [by left |].
  destruct IH as [Hnone | (ads1 & device' & adv' & ads2 & -> & Hq & Hrest)].
  - destruct (qualifying_dec adv) as [Hq | Hq].
    + right. by exists [], device, adv, rest.
    + left. by constructor.
  - right. by exists ((device, adv) :: ads1), device', adv', ads2.
Qed.

(** X14. On a monitor that holds no capture a scan window returns a payload
    exactly when the scanner starts and stops without failing and at least
    one advertisement of the window carries, under company id 76, a payload
    of length 27 that starts with 0x12. *)
Theorem fresh_window_detects_iff (w : world) :
  found_data (self w) = None ->
  (exists h, eval find_airpods w = Ok (Some h)) <->
  start_raises (radio w 0%nat) = false
  /\ stop_raises (radio w 0%nat) = false
  /\ Exists (fun da => qualifying (snd da)) (adverts (radio w 0%nat)).
Proof.
  intros Hnone. split.
  - intros [h Hh]. unfold eval in Hh. rewrite find_airpods_run in Hh.
    destruct (start_raises (radio w 0%nat)); [done |].
    destruct (stop_raises (radio w 0%nat)); [done |].
    split_and!; try done.
    destruct (last_qualifying (adverts (radio w 0%nat)))
      as [Hquiet | (ads1 & device & adv & ads2 & -> & Hq & _)].
    + cbn zeta in Hh. unfold exec in Hh. rewrite deliver_skip in Hh by done.
      cbn [fst snd after_window self] in Hh. by rewrite Hnone in Hh.
    + apply Exists_app. right. by constructor.
  - intros (Hstart & Hstop & Hex).
    destruct (last_qualifying (adverts (radio w 0%nat)))
      as [Hquiet | (ads1 & device & adv & ads2 & Hads & (data & Hmd & Hs) & Hrest)].
    + exfalso. apply Exists_exists in Hex as (da & Hin & Hq).
      rewrite Forall_forall in Hquiet. by apply (Hquiet da).
    + destruct (find_airpods_capture w ads1 device adv data ads2) as (me & Hf & _);
        try done.
      exists (hexlify data). unfold eval. by rewrite Hf.
Qed.

Lemma fresh_window_detects_iff_witness :
  exists h,
    eval find_airpods
      (fresh [hears [(headphones_b, advert (-40) [x12; x34]);
                     (headphones_a, advert (-60) (sample_payload x05 x80))]])
    = Ok (Some h).
Proof.
  apply (fresh_window_detects_iff
           (fresh [hears [(headphones_b, advert (-40) [x12; x34]);
                          (headphones_a, advert (-60) (sample_payload x05 x80))]]));
    [reflexivity |].
  split; [reflexivity |]. split; [reflexivity |].
  apply Exists_cons_tl, Exists_cons_hd.
  exists (sample_payload x05 x80). split; [reflexivity |]. split; reflexivity.
Defined.
